(** * Recalla: the UI walkthrough runner [verification/verify_game.py]

    The script drives a browser through the home page, the topic list and
    the game view of the application, and saves one screenshot.  Every
    statement of the script is a call into the browser-automation library
    (or [print], or [time.sleep]); the answers come from the outside
    world, and any of them can be an exception.  The embedding keeps the script as it is written, in a small
    state-and-exception monad, and lets an arbitrary oracle play the
    library and the application under test. *)

From Stdlib Require Import ZArith.
From Stdlib.Strings Require Import Byte.
From stdpp Require Import gmap strings list.

Local Open Scope string_scope.
Local Open Scope Z_scope.

(** ** The library interface used by the script *)

(** Locators are lazy descriptions of elements: [page.get_by_text],
    [page.get_by_role] and the [.first] property build them without
    touching the page. *)
Inductive locator : Type :=
| GetByText (text : string)
| GetByRole (role : string) (name : string)
| First (l : locator).

(** The calls that leave the script, with their arguments as the script
    passes them; an optional keyword argument that is left out is [None].
    [Print] is the write of a line to the standard output. *)
Inductive cmd : Type :=
| Print (line : string)
| SyncPlaywrightEnter
| ChromiumLaunch
| NewPage
| Goto (url : string)
| WaitForSelector (selector : string) (timeout : option Z)
| LocatorCount (l : locator)
| LocatorClick (l : locator)
| Sleep (secs : Z)
| Screenshot (path : option string) (full_page : option bool)
| BrowserClose
| SyncPlaywrightExit.

Inductive error : Type :=
| TimeoutError
| Error (message : string).

(** What a call gives back: [count()] an integer, [screenshot()] the image
    buffer, everything else nothing the script looks at. *)
Definition ret_ty (c : cmd) : Type :=
  match c with
  | LocatorCount _ => Z
  | Screenshot _ _ => list byte
  | _ => unit
  end.

Inductive outcome (A : Type) : Type :=
| Returned (a : A)
| Raised (e : error).
Arguments Returned {A} a.
Arguments Raised {A} e.

(** The outside world: the [k]-th call of a run takes some time and either
    returns or raises. *)
Definition oracle : Type := nat -> forall c : cmd, Z * outcome (ret_ty c).

(** ** Observations *)

Inductive value : Type :=
| VNone
| VInt (n : Z)
| VBytes (b : list byte).

Definition log_value (c : cmd) : ret_ty c -> value :=
  match c with
  | LocatorCount _ => VInt
  | Screenshot _ _ => VBytes
  | _ => fun _ => VNone
  end.

Definition log_outcome (c : cmd) (r : outcome (ret_ty c)) : outcome value :=
  match r with
  | Returned v => Returned (log_value c v)
  | Raised e => Raised e
  end.

(** A run leaves a trace: the lines printed, a [print] that raised, and
    the library calls, each call with the instants at which it began and
    ended. *)
Inductive event : Type :=
| EvPrint (line : string)
| EvPrintRaised (line : string) (e : error)
| EvCall (c : cmd) (t_start t_end : Z) (r : outcome value).

Record world : Type := World {
  calls : nat;
  now : Z;
  trace : list event;
  fs : gmap string (list byte);
  browser_live : bool
}.

(** The effect of a call that returned on the resources outside the
    script.  The library writes the captured image to [path] when one is
    given; a launched browser process lives until [browser.close()] or
    until the library is stopped at the end of the [with] block.  A call
    that raises is taken to have done nothing. *)
Definition lib_effect (c : cmd) : ret_ty c -> world -> world :=
  match c with
  | Screenshot path _ => fun img w =>
      match path with
      | Some p => World (calls w) (now w) (trace w) (<[p := img]> (fs w)) (browser_live w)
      | None => w
      end
  | ChromiumLaunch => fun _ w =>
      World (calls w) (now w) (trace w) (fs w) true
  | BrowserClose => fun _ w =>
      World (calls w) (now w) (trace w) (fs w) false
  | SyncPlaywrightExit => fun _ w =>
      World (calls w) (now w) (trace w) (fs w) false
  | _ => fun _ w => w
  end.

(** ** The monad of the script *)

Definition M (A : Type) : Type := world -> outcome A * world.

#[global] Instance M_ret : MRet M := fun A a w => (Returned a, w).

#[global] Instance M_bind : MBind M := fun A B f m w =>
  match m w with
  | (Returned a, w') => f a w'
  | (Raised e, w') => (Raised e, w')
  end.

Section Script.

Variable env : oracle.

(** [print(line)]: the line reaches the console, or the write raises (a
    closed pipe) and the exception goes up like any other.  The time a
    write takes is not counted. *)
Definition print (line : string) : M unit := fun w =>
  match (env (calls w) (Print line)).2 with
  | Returned _ =>
      (Returned tt,
       World (calls w) (now w) (trace w ++ [EvPrint line]) (fs w) (browser_live w))
  | Raised e =>
      (Raised e,
       World (calls w) (now w) (trace w ++ [EvPrintRaised line e]) (fs w)
             (browser_live w))
  end.

Definition call (c : cmd) : M (ret_ty c) := fun w =>
  let '(dt, r) := env (calls w) c in
  let w' := World (S (calls w)) (now w + dt)
                  (trace w ++ [EvCall c (now w) (now w + dt) (log_outcome c r)])
                  (fs w) (browser_live w) in
  match r with
  | Returned v => (Returned v, lib_effect c v w')
  | Raised e => (Raised e, w')
  end.

(** [with sync_playwright() as p: body]: the exit handler runs however the
    body ends, and an exception of the body is raised again after it. *)
Definition with_sync_playwright {A} (body : M A) : M A := fun w =>
  match call SyncPlaywrightEnter w with
  | (Raised e, w1) => (Raised e, w1)
  | (Returned _, w1) =>
      let '(r, w2) := body w1 in
      match call SyncPlaywrightExit w2 with
      | (Raised e, w3) => (Raised e, w3)
      | (Returned _, w3) => (r, w3)
      end
  end.

Definition get_by_text (text : string) : locator := GetByText text.
Definition get_by_role (role name : string) : locator := GetByRole role name.
Definition first (l : locator) : locator := First l.

Definition verify_game : M unit :=
  with_sync_playwright (
    call ChromiumLaunch ;;
    call NewPage ;;
    print "Navigating to home page..." ;;
    call (Goto "http://localhost:5173/Recalla/") ;;
    call (WaitForSelector "text=Recalla" None) ;;
    print "Clicking Start Learning..." ;;
    let start_btn := get_by_text "Start Learning" in
    n ← call (LocatorCount start_btn) ;
    (if n >? 0 then
       call (LocatorClick start_btn)
     else
       print "Start button not found, navigating directly to /welcome" ;;
       call (Goto "http://localhost:5173/Recalla/welcome")) ;;
    print "Waiting for topics..." ;;
    call (WaitForSelector "text=German Words" (Some 10000)) ;;
    print "Clicking Play..." ;;
    let play_btn := first (get_by_role "button" "Play") in
    call (LocatorClick play_btn) ;;
    print "Waiting for game to load..." ;;
    call (WaitForSelector ".grid" (Some 10000)) ;;
    call (Sleep 2) ;;
    print "Taking screenshot..." ;;
    call (Screenshot (Some "verification/game_screenshot.png") None) ;;
    call BrowserClose ;;
    print "Done.").

End Script.

(** [if __name__ == "__main__": verify_game()]: the process arguments and
    environment are there, and the script does not look at them. *)
Definition main (argv : list string) (environ : gmap string string)
  (env : oracle) : M unit :=
  verify_game env.

(** A fresh process: no call made yet, nothing printed, no browser. *)
Definition boot (t0 : Z) (disk : gmap string (list byte)) : world :=
  World 0 t0 [] disk false.

Definition run (env : oracle) (t0 : Z) (disk : gmap string (list byte))
  : outcome unit * world :=
  verify_game env (boot t0 disk).

Definition result (env : oracle) (t0 : Z) (disk : gmap string (list byte))
  : outcome unit := (run env t0 disk).1.

Definition final (env : oracle) (t0 : Z) (disk : gmap string (list byte))
  : world := (run env t0 disk).2.

(** ** Reading a trace *)

#[global] Instance locator_eq_dec : EqDecision locator.
Proof. solve_decision. Defined.

#[global] Instance cmd_eq_dec : EqDecision cmd.
Proof. solve_decision. Defined.

Definition api_calls (tr : list event) : list cmd :=
  omap (fun ev => match ev with EvCall c _ _ _ => Some c | _ => None end) tr.

Definition call_events (tr : list event) : list event :=
  List.filter (fun ev => match ev with EvCall _ _ _ _ => true | _ => false end) tr.


Definition urls_visited (tr : list event) : list string :=
  omap (fun c => match c with Goto url => Some url | _ => None end) (api_calls tr).

Definition waits (tr : list event) : list (string * option Z) :=
  omap (fun c => match c with
                 | WaitForSelector sel timeout => Some (sel, timeout)
                 | _ => None
                 end) (api_calls tr).

Definition pauses (tr : list event) : list Z :=
  omap (fun c => match c with Sleep secs => Some secs | _ => None end) (api_calls tr).

Definition output_paths (tr : list event) : list (option string) :=
  omap (fun c => match c with Screenshot path _ => Some path | _ => None end)
       (api_calls tr).

(** [page.screenshot(full_page=...)]: the library captures the whole
    scrollable page only when asked to; left out, the option is off and
    the image is the visible viewport. *)
Definition captures_full_page (c : cmd) : bool :=
  match c with
  | Screenshot _ full_page => default false full_page
  | _ => false
  end.

Definition clicked_call_to_action (tr : list event) : bool :=
  bool_decide (LocatorClick (get_by_text "Start Learning") ∈ api_calls tr).


(** The waits that came back with their element. *)
Definition returned_waits (tr : list event) : list (string * option Z) :=
  omap (fun ev => match ev with
                  | EvCall (WaitForSelector sel timeout) _ _ (Returned _) =>
                      Some (sel, timeout)
                  | _ => None
                  end) tr.

(** [e2] is the call after [e1]: it begins when [e1] ends, and [e1] has
    returned unless [e2] is the exit handler of the [with] block. *)
Definition follows (e1 e2 : event) : Prop :=
  match e1, e2 with
  | EvCall c1 a1 b1 r1, EvCall c2 a2 b2 r2 =>
      b1 = a2 ∧ ((∃ v, r1 = Returned v) ∨ c2 = SyncPlaywrightExit)
  | _, _ => True
  end.

Fixpoint chained (evs : list event) : Prop :=
  match evs with
  | [] => True
  | e1 :: rest =>
      match rest with
      | [] => True
      | e2 :: _ => follows e1 e2
      end ∧ chained rest
  end.

(** [time.sleep(secs)] does not come back early. *)
Definition sleeps_in_full (env : oracle) : Prop :=
  ∀ k secs dt v, env k (Sleep secs) = (dt, Returned v) → secs ≤ dt.

(** A computation that leaves the disk as it was, but for the file [p]. *)
Definition writes_at_most (p : string) {A} (m : M A) : Prop :=
  ∀ w, fs (m w).2 = fs w ∨ ∃ img, fs (m w).2 = <[p := img]> (fs w).

Definition saves_to (p : string) (c : cmd) : Prop :=
  match c with
  | Screenshot path _ => path = Some p ∨ path = None
  | _ => True
  end.

(** ** The contract of the runner, in the words of its description *)

Definition root_url : string := "http://localhost:5173/Recalla/".
Definition welcome_url : string := "http://localhost:5173/Recalla/welcome".
Definition screenshot_path : string := "verification/game_screenshot.png".
Definition start_btn : locator := GetByText "Start Learning".
Definition play_btn : locator := First (GetByRole "button" "Play").

(** Step 4 or step 5: the click on the call to action, or the direct
    navigation to the post-start view. *)
Definition click_or_fallback (found : bool) : cmd :=
  if found then LocatorClick start_btn else Goto welcome_url.

(** Steps 1 to 10, between acquiring the automation context and
    releasing it. *)
Definition contract_body (found : bool) : list cmd :=
  [ ChromiumLaunch;
    NewPage;
    Goto root_url;
    WaitForSelector "text=Recalla" None;
    LocatorCount start_btn;
    click_or_fallback found;
    WaitForSelector "text=German Words" (Some 10000);
    LocatorClick play_btn;
    WaitForSelector ".grid" (Some 10000);
    Sleep 2;
    Screenshot (Some screenshot_path) None;
    BrowserClose ].

Definition contract_steps (found : bool) : list cmd :=
  SyncPlaywrightEnter :: contract_body found ++ [SyncPlaywrightExit].

Definition wait_plan : list (string * option Z) :=
  [ ("text=Recalla", None);
    ("text=German Words", Some 10000);
    (".grid", Some 10000) ].

(** ** Locators on a page *)

Section Locators.

(** A page is its elements in document order.  How the library matches a
    text or an accessible name is its own business. *)
Variable element : Type.
Variable has_text : string -> element -> bool.
Variable has_role : string -> string -> element -> bool.

Fixpoint resolve (l : locator) (page : list element) : list element :=
  match l with
  | GetByText text => List.filter (has_text text) page
  | GetByRole role name => List.filter (has_role role name) page
  | First l' => take 1 (resolve l' page)
  end.

(** Actions are strict: the locator must denote exactly one element. *)
Inductive target : Type :=
| Target (e : element)
| NoMatch
| StrictModeViolation (matches : nat).

Definition click_target (l : locator) (page : list element) : target :=
  match resolve l page with
  | [] => NoMatch
  | [e] => Target e
  | matches => StrictModeViolation (length matches)
  end.

End Locators.

Arguments Target {element} e.
Arguments NoMatch {element}.
Arguments StrictModeViolation {element} matches.
Arguments resolve {element} has_text has_role l page.
Arguments click_target {element} has_text has_role l page.

(** ** Sample environments *)

Definition png : list byte := [x89; x50; x4e; x47].

(** Everything works; [cta] elements carry the text "Start Learning". *)
Definition env_ok (cta : Z) : oracle := fun _ c =>
  match c return Z * outcome (ret_ty c) with
  | LocatorCount _ => (1, Returned cta)
  | Screenshot _ _ => (1, Returned png)
  | Sleep s => (s, Returned tt)
  | _ => (1, Returned tt)
  end.

Definition is_print (c : cmd) : bool :=
  match c with Print _ => true | _ => false end.

(** The [k]-th call of the run gives up after [dt]; the rest works, and
    so does the console. *)
Definition env_fail_at (k : nat) (dt : Z) : oracle := fun i c =>
  if (i =? k)%nat && negb (is_print c) then (dt, Raised TimeoutError)
  else env_ok 1 i c.




(** Everything works, and the capture is [img]. *)
Definition env_shot (img : list byte) : oracle := fun _ c =>
  match c return Z * outcome (ret_ty c) with
  | LocatorCount _ => (1, Returned 1)
  | Screenshot _ _ => (1, Returned img)
  | Sleep s => (s, Returned tt)
  | _ => (1, Returned tt)
  end.

Definition jpeg : list byte := [xff; xd8; xff; xe0].




(** A page of (role, accessible name) pairs. *)
Definition sample_page : list (string * string) :=
  [ ("heading", "German Words");
    ("button", "Edit");
    ("button", "Play");
    ("button", "Delete");
    ("button", "Play") ].

Definition sample_has_text (text : string) (e : string * string) : bool :=
  bool_decide (e.2 = text).

Definition sample_has_role (role name : string) (e : string * string) : bool :=
  bool_decide (e.1 = role) && bool_decide (e.2 = name).

(** ** The console *)

(** The lines a run has printed, in order. *)
Definition printed (tr : list event) : list string :=
  omap (fun ev => match ev with EvPrint line => Some line | _ => None end) tr.


(** The calls that stand between a [print] statement and the next one:
    those that can have raised when [line] is the last line on the
    console ([None]: nothing was printed). *)
Definition steps_after (line : option string) : list cmd :=
  match line with
  | None => [ SyncPlaywrightEnter; ChromiumLaunch; NewPage ]
  | Some l =>
      if String.eqb l "Navigating to home page..." then
        [ Goto "http://localhost:5173/Recalla/"; WaitForSelector "text=Recalla" None ]
      else if String.eqb l "Clicking Start Learning..." then
        [ LocatorCount (GetByText "Start Learning");
          LocatorClick (GetByText "Start Learning") ]
      else if String.eqb l "Start button not found, navigating directly to /welcome" then
        [ Goto "http://localhost:5173/Recalla/welcome" ]
      else if String.eqb l "Waiting for topics..." then
        [ WaitForSelector "text=German Words" (Some 10000) ]
      else if String.eqb l "Clicking Play..." then
        [ LocatorClick (First (GetByRole "button" "Play")) ]
      else if String.eqb l "Waiting for game to load..." then
        [ WaitForSelector ".grid" (Some 10000); Sleep 2 ]
      else if String.eqb l "Taking screenshot..." then
        [ Screenshot (Some "verification/game_screenshot.png") None; BrowserClose ]
      else []
  end.

(** A step that went through: a call that returned, a line printed. *)
Definition call_returned (ev : event) : bool :=
  match ev with
  | EvCall _ _ _ (Raised _) => false
  | EvPrintRaised _ _ => false
  | _ => true
  end.

(** ** Proof support *)

(** One answer of the oracle: the call returned, or it raised. *)
Ltac ask env :=
  match goal with
  | |- context [env ?k ?c] =>
      let dt := fresh "dt" in
      let v := fresh "v" in
      let e := fresh "e" in
      let E := fresh "E" in
      destruct (env k c) as [dt [v|e]] eqn:E; cbn
  end.

(** All the ways a run can go: every call returns or raises, and the
    call to action is there or not.  Each case ends with the result and
    the final world written out. *)
Ltac run_cases env t0 disk :=
  unfold result, final;
  let r := fresh "r" in
  let w := fresh "w" in
  let Hrun := fresh "Hrun" in
  destruct (run env t0 disk) as [r w] eqn:Hrun;
  revert Hrun;
  unfold run, verify_game, with_sync_playwright, boot, call,
    print, mbind, M_bind, mret, M_ret, get_by_text, get_by_role, first;
  cbn;
  repeat first
    [ ask env
    | match goal with
      | |- context [?n >? 0] => destruct (Z.gtb_spec n 0); cbn
      end ];
  intros [= <- <-]; cbn.

Ltac forget_answers env :=
  repeat match goal with E : env _ _ = _ |- _ => clear E end.

(** Find the position [i] of the event of [H] in an explicit trace. *)
Ltac locate H i :=
  repeat (destruct i as [|i]; cbn in H; try discriminate H).

(** [H] claims a member that an explicit list does not have. *)
Ltac absent H :=
  repeat (apply elem_of_cons in H as [H|H]; [ discriminate H | ]);
  by apply elem_of_nil in H.


Ltac cut_at fuel n :=
  lazymatch fuel with
  | O => fail
  | S ?fuel' => first [ exists n; reflexivity | cut_at fuel' (S n) ]
  end.

Lemma chained_lookup (evs : list event) (i : nat) (e1 e2 : event) :
  chained evs → evs !! i = Some e1 → evs !! S i = Some e2 → follows e1 e2.
Proof.
  revert i. induction evs as [|e evs IH]; intros i Hch H1 H2; [done|].
  destruct i as [|i].
  - destruct evs as [|e' evs]; simplify_eq/=. by destruct Hch.
  - destruct Hch as [_ Hch]. by eapply IH.
Qed.

(** ** The order of the steps *)

(** C9: execution is sequential.  The library calls of a run are the steps
    of the contract in the contract's order (launch, page, root URL, home
    landmark, click or fallback, category landmark, Play, grid marker,
    pause, screenshot, release), cut short where a step raised and then
    followed by the exit handler only; a run that completes makes all of
    them; and a call begins at the instant the previous call ended, the
    previous call having returned unless the call is the exit handler. *)
Theorem steps_in_order (env : oracle) (t0 : Z) (disk : gmap string (list byte)) :
  (api_calls (trace (final env t0 disk)) = [SyncPlaywrightEnter] ∨
   ∃ found k,
     api_calls (trace (final env t0 disk)) =
     SyncPlaywrightEnter :: take k (contract_body found) ++ [SyncPlaywrightExit]) ∧
  (result env t0 disk = Returned tt →
   ∃ found, api_calls (trace (final env t0 disk)) = contract_steps found) ∧
  (∀ i c1 a1 b1 r1 c2 a2 b2 r2,
     call_events (trace (final env t0 disk)) !! i = Some (EvCall c1 a1 b1 r1) →
     call_events (trace (final env t0 disk)) !! S i = Some (EvCall c2 a2 b2 r2) →
     b1 = a2 ∧ ((∃ v, r1 = Returned v) ∨ c2 = SyncPlaywrightExit)).
Proof.
  run_cases env t0 disk.
  all: split;
    [ first [ by left
            | right; first [ exists true; cut_at 14%nat 0%nat
                           | exists false; cut_at 14%nat 0%nat ] ] | ].
  all: split;
    [ intros ?; first [ discriminate | by exists true | by exists false ] | ].
  all: intros i c1 a1 b1 r1 c2 a2 b2 r2 H1 H2;
    eapply (chained_lookup _ _ _ _ _ H1 H2).
  Unshelve.
  all: cbn; repeat split; first [ by left; eexists | by right ].
Qed.

Lemma steps_in_order_witness :
  api_calls (trace (final (env_ok 0) 0 ∅)) = contract_steps false.
Proof.
  destruct (steps_in_order (env_ok 0) 0 ∅) as (_ & Hdone & _).
  destruct (Hdone eq_refl) as [found Hsteps].
  destruct found; [ | exact Hsteps ].
  vm_compute in Hsteps. discriminate Hsteps.
Defined.

(** ** The timeouts of the waits *)

(** C10: the waits of a run are, in order, the home landmark "text=Recalla"
    with no timeout argument, then the category "text=German Words" and the
    grid marker ".grid", both with the timeout 10000; a run that fails makes
    the first ones only, a run that completes makes the three. *)
Theorem wait_timeouts (env : oracle) (t0 : Z) (disk : gmap string (list byte)) :
  waits (trace (final env t0 disk)) `prefix_of` wait_plan ∧
  (result env t0 disk = Returned tt →
   waits (trace (final env t0 disk)) = wait_plan).
Proof.
  run_cases env t0 disk.
  all: split; [ by eexists | intros ?; first [ discriminate | reflexivity ] ].
Qed.

Lemma wait_timeouts_witness :
  waits (trace (final (env_ok 1) 0 ∅)) = wait_plan.
Proof. exact (proj2 (wait_timeouts (env_ok 1) 0 ∅) eq_refl). Defined.

(** ** The call to action and the fallback *)




(** ** The Play button *)

(** The first element of a page that passes a test splits the page. *)
Lemma filter_first {element : Type} (p : element → bool) (page : list element)
    (e : element) (rest : list element) :
  List.filter p page = e :: rest →
  ∃ before after,
    page = (before ++ e :: after)%list ∧
    p e = true ∧
    Forall (λ x, p x = false) before ∧
    rest = List.filter p after.
Proof.
  induction page as [|x page IH]; intros Hf; [ discriminate | ].
  cbn in Hf. destruct (p x) eqn:Hx.
  - injection Hf as -> <-. by exists [], page.
  - destruct (IH Hf) as (before & after & -> & He & Hbefore & Hrest).
    exists (x :: before), after. repeat split; [ done | | done ].
    by constructor.
Qed.

(** The two locators a run ever clicks. *)
Lemma clicks_of_run (env : oracle) (t0 : Z) (disk : gmap string (list byte))
    (l : locator) :
  LocatorClick l ∈ api_calls (trace (final env t0 disk)) →
  l = GetByText "Start Learning" ∨ l = First (GetByRole "button" "Play").
Proof.
  run_cases env t0 disk.
  all: forget_answers env.
  all: intros Hl.
  all: repeat (apply elem_of_cons in Hl as [Hl|Hl];
               [ first [ discriminate Hl | injection Hl as ->; by eauto ] | ]).
  all: by apply elem_of_nil in Hl.
Qed.

(** C3: the click that enters the game is made on the [.first] of the
    locator for role "button" and name "Play".  On a page where more than
    one element matches, that locator denotes one element: the match that
    comes first in document order, with no match before it. *)
Theorem play_first_match {element : Type}
    (has_text : string → element → bool)
    (has_role : string → string → element → bool)
    (env : oracle) (t0 : Z) (disk : gmap string (list byte))
    (l : locator) (page : list element) :
  LocatorClick l ∈ api_calls (trace (final env t0 disk)) →
  l ≠ GetByText "Start Learning" →
  (1 < length (resolve has_text has_role (GetByRole "button" "Play") page))%nat →
  l = First (GetByRole "button" "Play") ∧
  ∃ before e after,
    page = (before ++ e :: after)%list ∧
    has_role "button" "Play" e = true ∧
    Forall (λ x, has_role "button" "Play" x = false) before ∧
    click_target has_text has_role l page = Target e.
Proof.
  intros Hl Hstart Hmany.
  destruct (clicks_of_run _ _ _ _ Hl) as [->| ->]; [ done | ].
  split; [ done | ].
  unfold click_target. cbn in *.
  destruct (List.filter (has_role "button" "Play") page) as [|e rest] eqn:Hf;
    [ cbn in Hmany; lia | ].
  destruct (filter_first _ _ _ _ Hf) as (before & after & -> & He & Hbefore & _).
  by exists before, e, after.
Qed.

Lemma play_first_match_witness :
  ∃ e,
    click_target sample_has_text sample_has_role
      (First (GetByRole "button" "Play")) sample_page = Target e.
Proof.
  assert (LocatorClick (First (GetByRole "button" "Play"))
            ∈ api_calls (trace (final (env_ok 1) 0 ∅))) as Hl
    by (vm_compute; do 8 apply list_elem_of_further; apply list_elem_of_here).
  assert (First (GetByRole "button" "Play") ≠ GetByText "Start Learning") as Hne
    by discriminate.
  assert (1 < length (resolve sample_has_text sample_has_role
                        (GetByRole "button" "Play") sample_page))%nat as Hmany
    by (apply Nat.ltb_lt; reflexivity).
  destruct (play_first_match sample_has_text sample_has_role
              _ _ _ _ _ Hl Hne Hmany) as (_ & before & e & after & _ & _ & _ & Hclick).
  by exists e.
Defined.

(** ** A wait that times out *)

(** C4: when a wait for an element raises, whichever of the three it is,
    nothing catches the error: the only thing the run still does is the exit
    handler of the [with] block, and the run ends with that error (or with
    the one the exit handler raises on top of it).  No screenshot call is
    made and the disk is as it was.  A screenshot call is only ever made
    in a run whose three waits have all returned. *)
Theorem wait_timeout_aborts (env : oracle) (t0 : Z) (disk : gmap string (list byte)) :
  (∀ i sel timeout t1 t2 e,
     trace (final env t0 disk) !! i =
       Some (EvCall (WaitForSelector sel timeout) t1 t2 (Raised e)) →
     (∃ t3 r,
        drop (S i) (trace (final env t0 disk)) = [EvCall SyncPlaywrightExit t2 t3 r] ∧
        (∀ v, r = Returned v → result env t0 disk = Raised e) ∧
        (∀ e', r = Raised e' → result env t0 disk = Raised e')) ∧
     output_paths (trace (final env t0 disk)) = [] ∧
     fs (final env t0 disk) = disk) ∧
  (∀ path full_page,
     Screenshot path full_page ∈ api_calls (trace (final env t0 disk)) →
     returned_waits (trace (final env t0 disk)) = wait_plan).
Proof.
  run_cases env t0 disk.
  all: forget_answers env.
  all: split;
    [ intros i sel timeout t1 t2 err Hi; locate Hi i
    | intros path full_page Hshot; first [ reflexivity | absent Hshot ] ].
  all: injection Hi as <- <- <- <- <-.
  all: split; [ | by split ].
  all: eexists _, _; split; [ reflexivity | ].
  all: by split; intros ? [= <-].
Qed.

Lemma wait_timeout_aborts_witness :
  fs (final (env_fail_at 4 30000) 0 ∅) = ∅ ∧
  returned_waits (trace (final (env_ok 1) 0 ∅)) = wait_plan.
Proof.
  destruct (wait_timeout_aborts (env_fail_at 4 30000) 0 ∅) as [Habort _].
  destruct (wait_timeout_aborts (env_ok 1) 0 ∅) as [_ Hshot].
  assert (trace (final (env_fail_at 4 30000) 0 ∅) !! 5%nat =
          Some (EvCall (WaitForSelector "text=Recalla" None) 4 30004
                  (Raised TimeoutError))) as Hwait by reflexivity.
  assert (Screenshot (Some screenshot_path) None
            ∈ api_calls (trace (final (env_ok 1) 0 ∅))) as Hin
    by (vm_compute; do 11 apply list_elem_of_further; apply list_elem_of_here).
  destruct (Habort _ _ _ _ _ _ Hwait) as (_ & _ & Hdisk).
  split; [ exact Hdisk | exact (Hshot _ _ Hin) ].
Defined.

(** ** The settle pause *)

(** C5: whenever the wait for the grid marker returns, however long it
    took, the next thing the run does is [time.sleep(2)], which begins at
    that instant; and a screenshot call is only made after that pause has
    returned, so that at least 2 time units lie between the end of the wait
    and the beginning of the capture. *)
Theorem settle_pause (env : oracle) (t0 : Z) (disk : gmap string (list byte))
    (i : nat) (t1 t2 : Z) (v : value) :
  sleeps_in_full env →
  trace (final env t0 disk) !! i =
    Some (EvCall (WaitForSelector ".grid" (Some 10000)) t1 t2 (Returned v)) →
  ∃ t3 r,
    trace (final env t0 disk) !! S i = Some (EvCall (Sleep 2) t2 t3 r) ∧
    ∀ j path full_page t4 t5 r',
      trace (final env t0 disk) !! j =
        Some (EvCall (Screenshot path full_page) t4 t5 r') →
      j = S (S (S i)) ∧ (∃ v', r = Returned v') ∧ t4 = t3 ∧ t2 + 2 ≤ t4.
Proof.
  intros Hsleep.
  run_cases env t0 disk.
  all: repeat match goal with
         | E : _ _ (Sleep _) = (_, Returned _) |- _ => apply Hsleep in E
         end.
  all: forget_answers env.
  all: intros Hi; locate Hi i.
  all: injection Hi as <- <- <-.
  all: eexists _, _; split; [ reflexivity | ].
  all: intros j path full_page t4 t5 r' Hj; locate Hj j.
  all: injection Hj as <- <- <- <- <-.
  all: repeat split; [ by eexists | lia ].
Qed.

Lemma env_ok_sleeps_in_full (cta : Z) : sleeps_in_full (env_ok cta).
Proof. intros k secs dt v [= <- _]. lia. Qed.

Lemma settle_pause_witness :
  ∃ t3 r,
    trace (final (env_ok 1) 0 ∅) !! 15%nat = Some (EvCall (Sleep 2) 10 t3 r).
Proof.
  assert (trace (final (env_ok 1) 0 ∅) !! 14%nat =
          Some (EvCall (WaitForSelector ".grid" (Some 10000)) 9 10
                  (Returned VNone))) as Hgrid by reflexivity.
  destruct (settle_pause _ _ _ _ _ _ _ (env_ok_sleeps_in_full 1) Hgrid)
    as (t3 & r & Hnext & _).
  by exists t3, r.
Defined.

(** ** The screenshot *)

(** C1, as stated, fails: in a run that completes, no call asks the
    library for a capture of the full page. *)
Lemma screenshot_is_not_full_page :
  result (env_ok 1) 0 ∅ = Returned tt ∧
  ¬ ∃ c, c ∈ api_calls (trace (final (env_ok 1) 0 ∅)) ∧ captures_full_page c = true.
Proof.
  split; [ reflexivity | ].
  intros (c & Hc & Hfull). vm_compute in Hc.
  repeat (apply elem_of_cons in Hc as [->|Hc]; [ discriminate Hfull | ]).
  by apply elem_of_nil in Hc.
Qed.

(** C1, amended: in a run that completes, the grid marker wait returns,
    the pause of 2 follows and returns, and then the run makes its one
    screenshot call, with the path verification/game_screenshot.png and no
    [full_page] argument, so that the capture is the library's default
    one; the image it returns is what the disk holds at that path. *)
Theorem screenshot_saved (env : oracle) (t0 : Z) (disk : gmap string (list byte)) :
  result env t0 disk = Returned tt →
  ∃ i t1 t2 t3 t4 img,
    trace (final env t0 disk) !! i =
      Some (EvCall (WaitForSelector ".grid" (Some 10000)) t1 t2 (Returned VNone)) ∧
    trace (final env t0 disk) !! S i =
      Some (EvCall (Sleep 2) t2 t3 (Returned VNone)) ∧
    trace (final env t0 disk) !! S (S (S i)) =
      Some (EvCall (Screenshot (Some "verification/game_screenshot.png") None)
              t3 t4 (Returned (VBytes img))) ∧
    output_paths (trace (final env t0 disk)) = [Some "verification/game_screenshot.png"] ∧
    fs (final env t0 disk) = <["verification/game_screenshot.png" := img]> disk ∧
    Forall (λ c, captures_full_page c = false) (api_calls (trace (final env t0 disk))).
Proof.
  run_cases env t0 disk.
  all: intros Hdone; try discriminate Hdone.
  all: solve [ (exists 14%nat + exists 15%nat);
               eexists _, _, _, _, _; repeat split; repeat constructor ].
Qed.

Lemma screenshot_saved_witness :
  ∃ img, fs (final (env_ok 1) 0 ∅) = <["verification/game_screenshot.png" := img]> ∅.
Proof.
  assert (result (env_ok 1) 0 ∅ = Returned tt) as Hdone by reflexivity.
  destruct (screenshot_saved _ _ _ Hdone)
    as (i & t1 & t2 & t3 & t4 & img & _ & _ & _ & _ & Hdisk & _).
  by exists img.
Defined.

(** ** The scope of the automation context *)




(** ** What a run leaves on the disk *)

Section Frame.

Variable env : oracle.
Variable p : string.

Lemma writes_ret {A} (a : A) : writes_at_most p (mret a : M A).
Proof. intros w. by left. Qed.

Lemma writes_print (line : string) : writes_at_most p (print env line).
Proof.
  intros w. unfold print.
  destruct (env (calls w) (Print line)) as [dt [v|e]]; by left.
Qed.

Lemma writes_call (c : cmd) : saves_to p c → writes_at_most p (call env c).
Proof.
  intros Hc w. unfold call.
  destruct (env (calls w) c) as [dt [v|e]]; cbn; [ | by left ].
  destruct c as [ | | | | | | | | |path full_page| | ]; cbn; try by left.
  destruct Hc as [->| ->]; [ right; by exists v | by left ].
Qed.

Lemma writes_bind {A B} (m : M A) (f : A → M B) :
  writes_at_most p m → (∀ a, writes_at_most p (f a)) →
  writes_at_most p (m ≫= f).
Proof.
  intros Hm Hf w. specialize (Hm w). unfold mbind, M_bind.
  destruct (m w) as [[a|e] w']; cbn in *; [ | done ].
  destruct (Hf a w') as [Hk|[img Hk]]; rewrite Hk.
  - done.
  - right. exists img. destruct Hm as [->|[img' ->]]; [ done | ].
    by rewrite insert_insert_eq.
Qed.

Lemma writes_with {A} (body : M A) :
  writes_at_most p body → writes_at_most p (with_sync_playwright env body).
Proof.
  intros Hbody w. unfold with_sync_playwright, call.
  destruct (env (calls w) SyncPlaywrightEnter) as [dt [v|e]]; cbn; [ | by left ].
  match goal with |- context [body ?w1] =>
    specialize (Hbody w1); destruct (body w1) as [r w2] end.
  cbn in *.
  by destruct (env (calls w2) SyncPlaywrightExit) as [dt' [v'|e']].
Qed.

End Frame.

Lemma verify_game_writes (env : oracle) :
  writes_at_most "verification/game_screenshot.png" (verify_game env).
Proof.
  unfold verify_game. apply writes_with.
  repeat first
    [ apply writes_print
    | match goal with
      | |- writes_at_most _ (call _ ?c) => apply (writes_call _ _ c); cbn; auto
      end
    | apply writes_bind; [ | intros ? ]
    | match goal with |- context [if ?b then _ else _] => destruct b end ].
Qed.

(** A screenshot call that returned has put its image on the disk. *)
Lemma captured_image_on_disk (env : oracle) (t0 : Z) (disk : gmap string (list byte))
    (i : nat) (path : option string) (full_page : option bool) (t1 t2 : Z)
    (img : list byte) :
  trace (final env t0 disk) !! i =
    Some (EvCall (Screenshot path full_page) t1 t2 (Returned (VBytes img))) →
  fs (final env t0 disk) = <["verification/game_screenshot.png" := img]> disk.
Proof.
  run_cases env t0 disk.
  all: forget_answers env.
  all: intros Hi; locate Hi i.
  all: by injection Hi as <- <- <- <- <-.
Qed.

Lemma completed_run_captures (env : oracle) (t0 : Z) (disk : gmap string (list byte)) :
  result env t0 disk = Returned tt →
  ∃ i t1 t2 img,
    trace (final env t0 disk) !! i =
      Some (EvCall (Screenshot (Some "verification/game_screenshot.png") None)
              t1 t2 (Returned (VBytes img))).
Proof.
  run_cases env t0 disk.
  all: intros Hdone; try discriminate Hdone.
  all: solve [ (exists 17%nat + exists 18%nat); by eexists _, _, _ ].
Qed.

(** C7: a run leaves the disk as it found it, except that the file
    verification/game_screenshot.png may have been written; a run that
    completes has written there the image its screenshot call returned.
    After a second run every other path still holds what it held before
    the first, and the set of files has grown by that one path at most.
    Whenever the screenshot call of the second run returns, the file holds
    the image of that call and nothing of what the first run had put
    there: the previous screenshot is overwritten, and the files are those
    the first run left. *)
Theorem only_the_screenshot_file (env1 env2 : oracle) (t1 t2 : Z)
    (disk : gmap string (list byte)) :
  (fs (final env1 t1 disk) = disk ∨
   ∃ img, fs (final env1 t1 disk) = <["verification/game_screenshot.png" := img]> disk) ∧
  (result env1 t1 disk = Returned tt →
   ∃ i a b img,
     trace (final env1 t1 disk) !! i =
       Some (EvCall (Screenshot (Some "verification/game_screenshot.png") None)
               a b (Returned (VBytes img))) ∧
     fs (final env1 t1 disk) = <["verification/game_screenshot.png" := img]> disk) ∧
  (∀ p, p ≠ "verification/game_screenshot.png" →
     fs (final env2 t2 (fs (final env1 t1 disk))) !! p = disk !! p) ∧
  dom (fs (final env2 t2 (fs (final env1 t1 disk))))
    ⊆ {["verification/game_screenshot.png"]} ∪ dom disk ∧
  (∀ i path full_page a b img2,
     trace (final env2 t2 (fs (final env1 t1 disk))) !! i =
       Some (EvCall (Screenshot path full_page) a b (Returned (VBytes img2))) →
     fs (final env2 t2 (fs (final env1 t1 disk))) =
       <["verification/game_screenshot.png" := img2]> disk ∧
     fs (final env2 t2 (fs (final env1 t1 disk))) !! "verification/game_screenshot.png" =
       Some img2 ∧
     (is_Some (fs (final env1 t1 disk) !! "verification/game_screenshot.png") →
      dom (fs (final env2 t2 (fs (final env1 t1 disk)))) = dom (fs (final env1 t1 disk)))) ∧
  (result env1 t1 disk = Returned tt →
   result env2 t2 (fs (final env1 t1 disk)) = Returned tt →
   ∃ i a b img2,
     trace (final env2 t2 (fs (final env1 t1 disk))) !! i =
       Some (EvCall (Screenshot (Some "verification/game_screenshot.png") None)
               a b (Returned (VBytes img2))) ∧
     fs (final env2 t2 (fs (final env1 t1 disk))) =
       <["verification/game_screenshot.png" := img2]> disk ∧
     dom (fs (final env2 t2 (fs (final env1 t1 disk)))) = dom (fs (final env1 t1 disk))).
Proof.
  pose proof (verify_game_writes env1 (boot t1 disk)) as H1.
  change (fs (verify_game env1 (boot t1 disk)).2) with (fs (final env1 t1 disk)) in H1.
  change (fs (boot t1 disk)) with disk in H1.
  pose proof (completed_run_captures env1 t1 disk) as D1.
  pose proof (captured_image_on_disk env1 t1 disk) as K1.
  pose proof (verify_game_writes env2 (boot t2 (fs (final env1 t1 disk)))) as H2.
  change (fs (verify_game env2 (boot t2 (fs (final env1 t1 disk)))).2)
    with (fs (final env2 t2 (fs (final env1 t1 disk)))) in H2.
  change (fs (boot t2 (fs (final env1 t1 disk)))) with (fs (final env1 t1 disk)) in H2.
  pose proof (completed_run_captures env2 t2 (fs (final env1 t1 disk))) as D2.
  pose proof (captured_image_on_disk env2 t2 (fs (final env1 t1 disk))) as K2.
  assert (∀ img, <["verification/game_screenshot.png" := img]> (fs (final env1 t1 disk)) =
                 <["verification/game_screenshot.png" := img]> disk) as Hover.
  { intros img. destruct H1 as [E1|[img1 E1]]; rewrite E1; [ done | ].
    by rewrite insert_insert_eq. }
  split; [ exact H1 | ].
  split.
  { intros Hdone1. destruct (D1 Hdone1) as (i & a & b & img & Hshot).
    exists i, a, b, img. split; [ done | by eapply K1 ]. }
  split.
  { intros p Hp.
    destruct H1 as [E1|[img1 E1]], H2 as [E2|[img2 E2]];
      rewrite E2, E1; by rewrite ?lookup_insert_ne. }
  split.
  { destruct H1 as [E1|[img1 E1]], H2 as [E2|[img2 E2]];
      rewrite E2, E1, ?dom_insert_L; set_solver. }
  split.
  { intros i path full_page a b img2 Hshot.
    rewrite (K2 _ _ _ _ _ _ Hshot), Hover.
    split; [ done | ]. split; [ by rewrite lookup_insert_eq | ].
    intros [img1 Hold]. rewrite <- (Hover img2), dom_insert_L.
    apply elem_of_dom_2 in Hold. set_solver. }
  intros Hdone1 Hdone2.
  destruct (D2 Hdone2) as (i & a & b & img2 & Hshot).
  destruct (D1 Hdone1) as (i1 & a1 & b1 & img1 & Hshot1).
  exists i, a, b, img2. split; [ done | ].
  rewrite (K2 _ _ _ _ _ _ Hshot), Hover. split; [ done | ].
  rewrite (K1 _ _ _ _ _ _ Hshot1), !dom_insert_L. set_solver.
Qed.

Lemma only_the_screenshot_file_witness :
  fs (final (env_ok 1) 0 ∅) !! "verification/game_screenshot.png" = Some png ∧
  fs (final (env_shot jpeg) 100 (fs (final (env_ok 1) 0 ∅)))
    !! "verification/game_screenshot.png" = Some jpeg.
Proof.
  split; [ reflexivity | ].
  assert (trace (final (env_shot jpeg) 100 (fs (final (env_ok 1) 0 ∅))) !! 17%nat =
          Some (EvCall (Screenshot (Some "verification/game_screenshot.png") None)
                  112 113 (Returned (VBytes jpeg)))) as Hshot by reflexivity.
  destruct (only_the_screenshot_file (env_ok 1) (env_shot jpeg) 0 100 ∅)
    as (_ & _ & _ & _ & Hover & _).
  exact (proj1 (proj2 (Hover _ _ _ _ _ _ Hshot))).
Defined.

(** ** Hardcoded configuration *)

(** What one run visits, waits on, pauses for and writes. *)
Lemma plan_of_run (env : oracle) (t0 : Z) (disk : gmap string (list byte)) :
  urls_visited (trace (final env t0 disk)) `prefix_of` [root_url; welcome_url] ∧
  waits (trace (final env t0 disk)) `prefix_of` wait_plan ∧
  pauses (trace (final env t0 disk)) `prefix_of` [2] ∧
  output_paths (trace (final env t0 disk)) `prefix_of` [Some screenshot_path] ∧
  (result env t0 disk = Returned tt →
   waits (trace (final env t0 disk)) = wait_plan ∧
   pauses (trace (final env t0 disk)) = [2] ∧
   output_paths (trace (final env t0 disk)) = [Some screenshot_path] ∧
   urls_visited (trace (final env t0 disk)) =
     if clicked_call_to_action (trace (final env t0 disk))
     then [root_url] else [root_url; welcome_url]).
Proof.
  run_cases env t0 disk.
  all: do 4 (split; [ by eexists | ]).
  all: intros Hdone; try discriminate Hdone.
  all: by repeat split.
Qed.

(** C8, as stated, fails: two invocations that both complete, one finding
    the call to action and one not, do not visit the same URLs. *)
Lemma urls_depend_on_the_page :
  result (env_ok 1) 0 ∅ = Returned tt ∧
  result (env_ok 0) 0 ∅ = Returned tt ∧
  urls_visited (trace (final (env_ok 1) 0 ∅)) ≠ urls_visited (trace (final (env_ok 0) 0 ∅)).
Proof. repeat split. vm_compute. discriminate. Qed.

(** C8, amended: the script looks at no argument and no environment
    variable.  In every invocation the URLs visited, the selectors waited on
    with their timeouts, the pause and the output path are prefixes of fixed
    sequences; two invocations that complete agree on the selectors, the
    timeouts, the pause and the output path, and visit the same URLs exactly
    when both or neither clicked the call to action. *)
Theorem hardcoded_plan (argv1 argv2 : list string)
    (environ1 environ2 : gmap string string)
    (env1 env2 : oracle) (t1 t2 : Z) (disk1 disk2 : gmap string (list byte)) :
  main argv1 environ1 env1 = main argv2 environ2 env1 ∧
  urls_visited (trace (final env1 t1 disk1)) `prefix_of` [root_url; welcome_url] ∧
  waits (trace (final env1 t1 disk1)) `prefix_of` wait_plan ∧
  pauses (trace (final env1 t1 disk1)) `prefix_of` [2] ∧
  output_paths (trace (final env1 t1 disk1)) `prefix_of` [Some screenshot_path] ∧
  (result env1 t1 disk1 = Returned tt →
   result env2 t2 disk2 = Returned tt →
   waits (trace (final env1 t1 disk1)) = waits (trace (final env2 t2 disk2)) ∧
   pauses (trace (final env1 t1 disk1)) = pauses (trace (final env2 t2 disk2)) ∧
   output_paths (trace (final env1 t1 disk1)) =
     output_paths (trace (final env2 t2 disk2)) ∧
   (urls_visited (trace (final env1 t1 disk1)) =
      urls_visited (trace (final env2 t2 disk2)) ↔
    clicked_call_to_action (trace (final env1 t1 disk1)) =
      clicked_call_to_action (trace (final env2 t2 disk2)))).
Proof.
  destruct (plan_of_run env1 t1 disk1) as (Hu & Hw & Hp & Ho & Hdone1).
  destruct (plan_of_run env2 t2 disk2) as (_ & _ & _ & _ & Hdone2).
  split; [ reflexivity | ].
  repeat (split; [ assumption | ]).
  intros D1 D2.
  destruct (Hdone1 D1) as (-> & -> & -> & ->), (Hdone2 D2) as (-> & -> & -> & ->).
  repeat (split; [ reflexivity | ]).
  by destruct (clicked_call_to_action _), (clicked_call_to_action _).
Qed.

Lemma hardcoded_plan_witness :
  waits (trace (final (env_ok 1) 0 ∅)) = waits (trace (final (env_ok 0) 7 ∅)).
Proof.
  destruct (hardcoded_plan ["verify_game.py"] [] ∅ ∅ (env_ok 1) (env_ok 0) 0 7 ∅ ∅)
    as (_ & _ & _ & _ & _ & Hboth).
  assert (result (env_ok 1) 0 ∅ = Returned tt) as D1 by reflexivity.
  assert (result (env_ok 0) 7 ∅ = Returned tt) as D2 by reflexivity.
  exact (proj1 (Hboth D1 D2)).
Defined.

(** ** Failures of any step *)

(** X1: no call of the script is guarded.  When a call raises, whichever
    it is, the run ends with an error.  If it is a call of the body, the
    only thing that still happens is the exit handler of the [with] block,
    and the run ends with the error of that call, or with the one the exit
    handler raises on top of it.  If it is the entry or the exit of the
    block itself, nothing follows and the run ends with that error. *)
Theorem any_failure_aborts (env : oracle) (t0 : Z) (disk : gmap string (list byte))
    (i : nat) (c : cmd) (t1 t2 : Z) (e : error) :
  trace (final env t0 disk) !! i = Some (EvCall c t1 t2 (Raised e)) →
  (c = SyncPlaywrightEnter ∨ c = SyncPlaywrightExit →
   drop (S i) (trace (final env t0 disk)) = [] ∧
   result env t0 disk = Raised e) ∧
  (c ≠ SyncPlaywrightEnter → c ≠ SyncPlaywrightExit →
   ∃ t3 r,
     drop (S i) (trace (final env t0 disk)) = [EvCall SyncPlaywrightExit t2 t3 r] ∧
     (∀ v, r = Returned v → result env t0 disk = Raised e) ∧
     (∀ e', r = Raised e' → result env t0 disk = Raised e')).
Proof.
  run_cases env t0 disk.
  all: forget_answers env.
  all: intros Hi; locate Hi i.
  all: injection Hi as <- <- <- <-.
  all: split; [ intros [Hc|Hc]; first [ discriminate Hc | by split ] | ].
  all: intros Hne1 Hne2; try done.
  all: eexists _, _; split; [ reflexivity | ].
  all: by split; intros ? [= <-].
Qed.

Lemma any_failure_aborts_witness :
  result (env_fail_at 1 5) 0 ∅ = Raised TimeoutError.
Proof.
  assert (trace (final (env_fail_at 1 5) 0 ∅) !! 1%nat =
          Some (EvCall ChromiumLaunch 1 6 (Raised TimeoutError))) as Hlaunch
    by reflexivity.
  destruct (any_failure_aborts _ _ _ _ _ _ _ _ Hlaunch) as [_ Hbody].
  assert (ChromiumLaunch ≠ SyncPlaywrightEnter) as Hne1 by discriminate.
  assert (ChromiumLaunch ≠ SyncPlaywrightExit) as Hne2 by discriminate.
  destruct (Hbody Hne1 Hne2) as (t3 & r & Hdrop & Hexit & _).
  assert (r = Returned VNone) as Hr by (vm_compute in Hdrop; congruence).
  exact (Hexit _ Hr).
Defined.

(** X2: a run completes exactly when none of its calls and none of its
    [print]s has raised; it has then made its fourteen calls. *)
Theorem completes_iff_no_call_raised (env : oracle) (t0 : Z)
    (disk : gmap string (list byte)) :
  (result env t0 disk = Returned tt ↔
   forallb call_returned (trace (final env t0 disk)) = true) ∧
  (result env t0 disk = Returned tt →
   length (api_calls (trace (final env t0 disk))) = 14%nat).
Proof.
  run_cases env t0 disk.
  all: split; [ split; intros Hd; first [ discriminate Hd | reflexivity ]
              | intros Hd; first [ discriminate Hd | reflexivity ] ].
Qed.

Lemma completes_iff_no_call_raised_witness :
  length (api_calls (trace (final (env_ok 1) 0 ∅))) = 14%nat.
Proof.
  assert (forallb call_returned (trace (final (env_ok 1) 0 ∅)) = true) as Hall
    by reflexivity.
  destruct (completes_iff_no_call_raised (env_ok 1) 0 ∅) as [Hiff Hcount].
  exact (Hcount (proj2 Hiff Hall)).
Defined.

(** ** The file and the outcome *)

(** X3: the file is on the disk exactly when the screenshot call has
    returned, whatever becomes of the run afterwards.  With no such call
    returned the disk is untouched; and a run in which [browser.close()]
    raises ends with an error although the screenshot is already saved. *)
Theorem screenshot_kept_on_late_failure (env : oracle) (t0 : Z)
    (disk : gmap string (list byte)) :
  (∀ i path full_page t1 t2 img,
     trace (final env t0 disk) !! i =
       Some (EvCall (Screenshot path full_page) t1 t2 (Returned (VBytes img))) →
     fs (final env t0 disk) = <["verification/game_screenshot.png" := img]> disk) ∧
  ((∀ i path full_page t1 t2 v,
      trace (final env t0 disk) !! i ≠
        Some (EvCall (Screenshot path full_page) t1 t2 (Returned v))) →
   fs (final env t0 disk) = disk) ∧
  (∀ i t1 t2 e,
     trace (final env t0 disk) !! i = Some (EvCall BrowserClose t1 t2 (Raised e)) →
     (∃ e', result env t0 disk = Raised e') ∧
     ∃ img, fs (final env t0 disk) = <["verification/game_screenshot.png" := img]> disk).
Proof.
  run_cases env t0 disk.
  all: forget_answers env.
  all: split; [ intros i path full_page t1 t2 img Hi; locate Hi i | ].
  all: try (injection Hi as <- <- <- <- <-; reflexivity).
  all: split;
    [ intros Hnone;
      first [ reflexivity
            | exfalso; by eapply (Hnone 17%nat)
            | exfalso; by eapply (Hnone 18%nat) ]
    | intros i t1 t2 err Hi; locate Hi i ].
  all: by split; eexists.
Qed.

Lemma screenshot_kept_on_late_failure_witness :
  (∃ e, result (env_fail_at 12 5) 0 ∅ = Raised e) ∧
  ∃ img, fs (final (env_fail_at 12 5) 0 ∅) = <["verification/game_screenshot.png" := img]> ∅.
Proof.
  assert (trace (final (env_fail_at 12 5) 0 ∅) !! 18%nat =
          Some (EvCall BrowserClose 13 18 (Raised TimeoutError))) as Hclose
    by reflexivity.
  destruct (screenshot_kept_on_late_failure (env_fail_at 12 5) 0 ∅) as (_ & _ & Hlate).
  exact (Hlate _ _ _ _ Hclose).
Defined.

(** ** The progress lines *)



(** X5: the last line on the console tells where a run failed.  The call
    of the body that raised is one of the calls the script makes between
    the [print] of that line and the next [print]. *)
Theorem last_line_locates_failure (env : oracle) (t0 : Z)
    (disk : gmap string (list byte)) (i : nat) (c : cmd) (t1 t2 : Z) (e : error) :
  trace (final env t0 disk) !! i = Some (EvCall c t1 t2 (Raised e)) →
  c ≠ SyncPlaywrightExit →
  c ∈ steps_after (last (printed (trace (final env t0 disk)))).
Proof.
  run_cases env t0 disk.
  all: forget_answers env.
  all: intros Hi; locate Hi i.
  all: injection Hi as <- <- <- <-.
  all: intros Hne; try done.
  all: apply (bool_decide_unpack _); by vm_compute.
Qed.

Lemma last_line_locates_failure_witness :
  WaitForSelector "text=German Words" (Some 10000) ∈ steps_after (Some "Waiting for topics...").
Proof.
  assert (trace (final (env_fail_at 7 10000) 0 ∅) !! 10%nat =
          Some (EvCall (WaitForSelector "text=German Words" (Some 10000)) 7 10007
                  (Raised TimeoutError))) as Hwait by reflexivity.
  assert (WaitForSelector "text=German Words" (Some 10000) ≠ SyncPlaywrightExit) as Hne
    by discriminate.
  exact (last_line_locates_failure _ _ _ _ _ _ _ _ Hwait Hne).
Defined.

(** ** The two clicks *)



(** ** No retry *)

(** X7: no step is retried.  A run makes each of its calls once at most
    (the two navigations are to different URLs, the three waits for
    different selectors, the two clicks on different locators), fourteen
    calls at most, and prints eight lines at most. *)
Theorem no_step_retried (env : oracle) (t0 : Z) (disk : gmap string (list byte)) :
  NoDup (api_calls (trace (final env t0 disk))) ∧
  (length (api_calls (trace (final env t0 disk))) ≤ 14)%nat ∧
  (length (printed (trace (final env t0 disk))) ≤ 8)%nat.
Proof.
  run_cases env t0 disk.
  all: split; [ apply (bool_decide_unpack _); by vm_compute | split; lia ].
Qed.
